(** * Data models of AI-Release-Guardian (src/src/models)

    A shallow embedding of the Pydantic models used by the release pipeline:
    construction of a model is a partial function ([option]) that returns the
    validated record, or [None] when Pydantic raises a [ValidationError].

    Python [float] fields are modelled by rationals [Q]: the validators only
    compare, add and subtract them.  [int] fields are [Z]; lengths are [nat];
    [str] is [String.string]; [Literal[...]] fields are inductive types. *)

From Stdlib Require Import QArith Qabs ZArith Lia Lqa.
From stdpp Require Import base gmap sets list strings.

Open Scope Z_scope.

(* ------------------------------------------------------------------------- *)
(** ** Pydantic field validation (test_report.py, TestAnalysisReport)          *)

(** Pydantic validates the fields of a model in declaration order.  A field
    validator ([mode="after"]) receives [info.data], the dict of the fields
    validated successfully *before* the current one.  A field that fails is
    left out of [info.data], the error is recorded and validation goes on;
    the model is rejected at the end if any error was recorded.

    The integer fields of [TestAnalysisReport], in declaration order. *)
Definition test_report_int_fields : list string :=
  ["total_tests"; "passed"; "failed"; "skipped"; "errored";
   "test_confidence_score"].

(** [TestAnalysisReport.validate_test_counts_sum], attached to "passed",
    "failed", "skipped" and "errored".  [None] is the [ValueError]. *)
Definition validate_test_counts_sum (data : gmap string Z) (v : Z) : option Z :=
  if forallb (fun k => bool_decide (is_Some (data !! k)))
       ["total_tests"; "passed"; "failed"; "skipped"; "errored"]
  then
    let get k := default 0 (data !! k) in
    let total := get "passed" + get "failed" + get "skipped" + get "errored" in
    if bool_decide (total = get "total_tests") then Some v else None
  else Some v.

(** The constraints of one integer field ([Field(ge=0)], [le=100] for the
    score), followed by its field validator. *)
Definition validate_int_field (name : string) (data : gmap string Z) (v : Z)
    : option Z :=
  if bool_decide (v < 0) then None
  else if bool_decide (name = "test_confidence_score") then
    (if bool_decide (100 < v) then None else Some v)
  else if bool_decide (name ∈ ["passed"; "failed"; "skipped"; "errored"])
  then validate_test_counts_sum data v
  else Some v.

(** One pass over the fields: the accumulated [info.data] and whether every
    field so far validated. *)
Fixpoint validate_fields (data : gmap string Z) (ok : bool)
    (fs : list (string * Z)) : gmap string Z * bool :=
  match fs with
  | [] => (data, ok)
  | (k, v) :: rest =>
      match validate_int_field k data v with
      | Some v' => validate_fields (<[k := v']> data) ok rest
      | None => validate_fields data false rest
      end
  end.

Record TestAnalysisReport := {
  tr_total_tests : Z;
  tr_passed : Z;
  tr_failed : Z;
  tr_skipped : Z;
  tr_errored : Z;
  tr_test_confidence_score : Z;
}.

(** [TestAnalysisReport(...)]: the string, list and datetime fields carry no
    validator and are not modelled; the model has no [model_validator]. *)
Definition mk_TestAnalysisReport (total_tests passed failed skipped errored
    test_confidence_score : Z) : option TestAnalysisReport :=
  let fs := zip test_report_int_fields
              [total_tests; passed; failed; skipped; errored;
               test_confidence_score] in
  match validate_fields ∅ true fs with
  | (_, true) =>
      Some {| tr_total_tests := total_tests; tr_passed := passed;
              tr_failed := failed; tr_skipped := skipped;
              tr_errored := errored;
              tr_test_confidence_score := test_confidence_score |}
  | (_, false) => None
  end.

(* ------------------------------------------------------------------------- *)
(** ** Float comparisons                                                       *)

(** Python [x < y] and [x <= y] on floats. *)
Definition Qlt_bool (x y : Q) : bool := negb (Qle_bool y x).
Definition Qin_range (lo x hi : Q) : bool := Qle_bool lo x && Qle_bool x hi.

(* ------------------------------------------------------------------------- *)
(** ** perf_report.py: MetricComparison                                        *)

Inductive Severity := Sev_none | Sev_minor | Sev_major | Sev_critical.
Inductive Direction := Improved | Degraded | Unchanged.

Record MetricComparison := {
  mc_metric_name : string;
  mc_service : string;
  mc_current_value : Q;
  mc_baseline_mean : Q;
  mc_baseline_stddev : Q;
  mc_baseline_sample_count : Z;
  mc_p_value : Q;
  mc_cohens_d : Q;
  mc_is_regression : bool;
  mc_severity : Severity;
  mc_direction : Direction;
}.

(** [MetricComparison(...)]: the [Field] constraints; the class declares no
    validator. *)
Definition mk_MetricComparison (metric_name service : string)
    (current_value baseline_mean baseline_stddev : Q)
    (baseline_sample_count : Z) (p_value cohens_d : Q) (is_regression : bool)
    (severity : Severity) (direction : Direction) : option MetricComparison :=
  if Qle_bool 0 baseline_stddev
     && bool_decide (0 <= baseline_sample_count)
     && Qin_range 0 p_value 1
     && Qle_bool 0 cohens_d
  then Some {| mc_metric_name := metric_name; mc_service := service;
               mc_current_value := current_value;
               mc_baseline_mean := baseline_mean;
               mc_baseline_stddev := baseline_stddev;
               mc_baseline_sample_count := baseline_sample_count;
               mc_p_value := p_value; mc_cohens_d := cohens_d;
               mc_is_regression := is_regression; mc_severity := severity;
               mc_direction := direction |}
  else None.

(** [MetricComparison.is_statistically_significant]: [p_value < 0.05]. *)
Definition is_statistically_significant (mc : MetricComparison) : bool :=
  Qlt_bool (mc_p_value mc) (5 # 100).

(** [MetricComparison.is_practically_significant]: [cohens_d > 0.5]. *)
Definition is_practically_significant (mc : MetricComparison) : bool :=
  Qlt_bool (1 # 2) (mc_cohens_d mc).

(* ------------------------------------------------------------------------- *)
(** ** risk_assessment.py                                                      *)

Inductive RiskCategory :=
  | Test_risk | Performance_risk | Blast_radius_risk | Historical_risk
  | Change_velocity_risk.

Record RiskBreakdown := {
  rb_category : RiskCategory;
  rb_raw_score : Q;
  rb_weight : Q;
  rb_weighted_score : Q;
  rb_details : string;
}.

(** [RiskBreakdown(...)]: field constraints, then [validate_weighted_score]
    ([abs(weighted_score - raw_score * weight) > 0.01] raises). *)
Definition mk_RiskBreakdown (category : RiskCategory)
    (raw_score weight weighted_score : Q) (details : string)
    : option RiskBreakdown :=
  if Qin_range 0 raw_score 100 && Qin_range 0 weight 1
     && Qle_bool 0 weighted_score
  then
    if Qlt_bool (1 # 100) (Qabs (weighted_score - raw_score * weight))
    then None
    else Some {| rb_category := category; rb_raw_score := raw_score;
                 rb_weight := weight; rb_weighted_score := weighted_score;
                 rb_details := details |}
  else None.

Record BlastRadius := {
  br_files_changed : Z;
  br_services_affected : list string;
  br_critical_services_affected : list string;
  br_downstream_dependencies : list string;
  br_estimated_users_affected : option Z;
}.

(** [BlastRadius.validate_critical_services_in_affected]: the loop raises at
    the first critical service not in [services_affected]. *)
Fixpoint validate_critical_services_in_affected (services critical : list string)
    : bool :=
  match critical with
  | [] => true
  | c :: rest =>
      if bool_decide (c ∈ services)
      then validate_critical_services_in_affected services rest
      else false
  end.

Definition mk_BlastRadius (files_changed : Z)
    (services_affected critical_services_affected downstream_dependencies
       : list string)
    (estimated_users_affected : option Z) : option BlastRadius :=
  if bool_decide (0 <= files_changed)
     && default true (fmap (fun u => bool_decide (0 <= u)) estimated_users_affected)
     && validate_critical_services_in_affected services_affected
          critical_services_affected
  then Some {| br_files_changed := files_changed;
               br_services_affected := services_affected;
               br_critical_services_affected := critical_services_affected;
               br_downstream_dependencies := downstream_dependencies;
               br_estimated_users_affected := estimated_users_affected |}
  else None.

(** [BlastRadius.total_impact_zone]:
    [list(set(services_affected) | set(downstream_dependencies))].  A Python
    set is a [gset]; [list(...)] lists its elements in some order. *)
Definition total_impact_zone (br : BlastRadius) : list string :=
  elements (list_to_set (br_services_affected br) ∪
            list_to_set (br_downstream_dependencies br) : gset string).

Inductive Scope := Minimal | Moderate | Large | Extreme.

(** [BlastRadius.scope]. *)
Definition scope (br : BlastRadius) : Scope :=
  let num_services := length (br_services_affected br) in
  let num_critical := length (br_critical_services_affected br) in
  if (7 <=? num_services)%nat || (3 <=? num_critical)%nat then Extreme
  else if (4 <=? num_services)%nat || (2 <=? num_critical)%nat then Large
  else if (2 <=? num_services)%nat then Moderate
  else Minimal.

Record HistoricalContext := {
  hc_service : string;
  hc_total_deployments_analyzed : Z;
  hc_rollback_count : Z;
  hc_rollback_rate : Q;
  hc_incident_count : Z;
  hc_avg_recovery_time_minutes : option Q;
  hc_similar_change_outcomes : list string;
  hc_last_rollback_days_ago : option Z;
}.

(** [HistoricalContext(...)]: field constraints, then
    [validate_rollback_count]. *)
Definition mk_HistoricalContext (service : string)
    (total_deployments_analyzed rollback_count : Z) (rollback_rate : Q)
    (incident_count : Z) (avg_recovery_time_minutes : option Q)
    (similar_change_outcomes : list string)
    (last_rollback_days_ago : option Z) : option HistoricalContext :=
  if bool_decide (0 <= total_deployments_analyzed) && bool_decide (0 <= rollback_count)
     && Qin_range 0 rollback_rate 1 && bool_decide (0 <= incident_count)
     && default true (fmap (Qle_bool 0) avg_recovery_time_minutes)
     && default true (fmap (fun d => bool_decide (0 <= d)) last_rollback_days_ago)
  then
    if bool_decide (total_deployments_analyzed < rollback_count) then None
    else Some {| hc_service := service;
                 hc_total_deployments_analyzed := total_deployments_analyzed;
                 hc_rollback_count := rollback_count;
                 hc_rollback_rate := rollback_rate;
                 hc_incident_count := incident_count;
                 hc_avg_recovery_time_minutes := avg_recovery_time_minutes;
                 hc_similar_change_outcomes := similar_change_outcomes;
                 hc_last_rollback_days_ago := last_rollback_days_ago |}
  else None.

Inductive ConfidenceLevel := HIGH | MEDIUM | LOW | CRITICAL.

#[global] Instance ConfidenceLevel_eq_dec : EqDecision ConfidenceLevel.
Proof. solve_decision. Defined.

Record RiskAssessment := {
  ra_build_id : string;
  ra_composite_risk_score : Z;
  ra_confidence_level : ConfidenceLevel;
  ra_risk_breakdown : list RiskBreakdown;
  ra_blast_radius : BlastRadius;
  ra_historical_context : option HistoricalContext;
  ra_narrative : string;
  ra_recommended_actions : list string;
}.

(** [sum(rb.weighted_score for rb in self.risk_breakdown)]. *)
Definition total_weighted (l : list RiskBreakdown) : Q :=
  fold_left (fun acc rb => acc + rb_weighted_score rb)%Q l 0%Q.

(** [RiskAssessment.validate_weighted_scores_sum]. *)
Definition validate_weighted_scores_sum (composite_risk_score : Z)
    (risk_breakdown : list RiskBreakdown) : bool :=
  negb (Qlt_bool 1 (Qabs (total_weighted risk_breakdown - inject_Z composite_risk_score))).

(** The [if]/[elif] chain of
    [RiskAssessment.validate_confidence_level_matches_score]. *)
Definition expected_level (score : Z) : ConfidenceLevel :=
  if score <=? 20 then HIGH
  else if score <=? 50 then MEDIUM
  else if score <=? 75 then LOW
  else CRITICAL.

Definition validate_confidence_level_matches_score (score : Z)
    (confidence_level : ConfidenceLevel) : bool :=
  bool_decide (confidence_level = expected_level score).

(** [RiskAssessment(...)]: the [Field(ge=0, le=100)] constraint on the score,
    then the two model validators in declaration order.  The nested models
    are passed as already constructed instances, which Pydantic does not
    revalidate. *)
Definition mk_RiskAssessment (build_id : string) (composite_risk_score : Z)
    (confidence_level : ConfidenceLevel) (risk_breakdown : list RiskBreakdown)
    (blast_radius : BlastRadius) (historical_context : option HistoricalContext)
    (narrative : string) (recommended_actions : list string)
    : option RiskAssessment :=
  if bool_decide (0 <= composite_risk_score <= 100) then
    if negb (validate_weighted_scores_sum composite_risk_score risk_breakdown)
    then None
    else if negb (validate_confidence_level_matches_score composite_risk_score
                    confidence_level)
    then None
    else Some {| ra_build_id := build_id;
                 ra_composite_risk_score := composite_risk_score;
                 ra_confidence_level := confidence_level;
                 ra_risk_breakdown := risk_breakdown;
                 ra_blast_radius := blast_radius;
                 ra_historical_context := historical_context;
                 ra_narrative := narrative;
                 ra_recommended_actions := recommended_actions |}
  else None.

(** Python's [max(items, key=k)] on a non-empty iterable: the running
    maximum is replaced only when a later item's key is strictly greater. *)
Fixpoint max_by_key {A} (k : A -> Q) (best : A) (l : list A) : A :=
  match l with
  | [] => best
  | x :: rest => if Qlt_bool (k best) (k x) then max_by_key k x rest
                 else max_by_key k best rest
  end.

(** [RiskAssessment.top_risk_factor]. *)
Definition top_risk_factor (ra : RiskAssessment) : option RiskBreakdown :=
  match ra_risk_breakdown ra with
  | [] => None
  | x :: rest => Some (max_by_key rb_weighted_score x rest)
  end.

(* ------------------------------------------------------------------------- *)
(** ** perf_report.py: PerformanceAnalysisReport                               *)

Record PerformanceAnalysisReport := {
  pr_build_id : string;
  pr_comparisons : list MetricComparison;
  pr_regressions_detected : Z;
  pr_anomalies_detected : Z;
  pr_missing_metrics : Z;
  pr_perf_confidence_score : Z;
  pr_summary : string;
}.

(** [PerformanceAnalysisReport(...)]: field constraints, then
    [validate_regressions_count]; benchmarks and SLO checks carry no
    constraint used here and are not modelled. *)
Definition mk_PerformanceAnalysisReport (build_id : string)
    (comparisons : list MetricComparison)
    (regressions_detected anomalies_detected missing_metrics
       perf_confidence_score : Z) (summary : string)
    : option PerformanceAnalysisReport :=
  if bool_decide (0 <= regressions_detected) && bool_decide (0 <= anomalies_detected)
     && bool_decide (0 <= missing_metrics)
     && bool_decide (0 <= perf_confidence_score <= 100)
  then
    if bool_decide (regressions_detected
                    = Z.of_nat (length (filter (fun c => mc_is_regression c = true)
                                          comparisons)))
    then Some {| pr_build_id := build_id; pr_comparisons := comparisons;
                 pr_regressions_detected := regressions_detected;
                 pr_anomalies_detected := anomalies_detected;
                 pr_missing_metrics := missing_metrics;
                 pr_perf_confidence_score := perf_confidence_score;
                 pr_summary := summary |}
    else None
  else None.

(* ------------------------------------------------------------------------- *)
(** ** release_decision.py                                                     *)

Inductive Decision := APPROVE | BLOCK | REQUEST_REVIEW.
Inductive PipelineAction := Proceed | Hold | Abort | Action_none.

#[global] Instance PipelineAction_eq_dec : EqDecision PipelineAction.
Proof. solve_decision. Defined.

Record PolicyEvaluation := {
  pe_environment : string;
  pe_policy_version : string;
  pe_risk_threshold_approve : Z;
  pe_risk_threshold_review : Z;
  pe_actual_risk_score : Z;
  pe_deployment_window_ok : bool;
  pe_freeze_period_ok : bool;
  pe_overrides_applied : list string;
  pe_raw_decision : Decision;
  pe_final_decision : Decision;
}.

Record ReleaseDecision := {
  rd_build_id : string;
  rd_commit_sha : string;
  rd_decision : Decision;
  rd_risk_score : Z;
  rd_confidence_level : ConfidenceLevel;
  rd_rationale : string;
  rd_policy_evaluation : PolicyEvaluation;
  rd_manual_override : bool;
  rd_overridden_by : option string;
  rd_override_reason : option string;
  rd_pipeline_action_taken : PipelineAction;
}.

(** [ReleaseDecision.validate_manual_override_has_reviewer]. *)
Definition validate_manual_override_has_reviewer (manual_override : bool)
    (overridden_by : option string) : bool :=
  negb (manual_override && bool_decide (overridden_by = None)).

(** The [expected_actions] dict of
    [ReleaseDecision.validate_pipeline_action_matches_decision]. *)
Definition expected_actions (d : Decision) : PipelineAction :=
  match d with
  | APPROVE => Proceed
  | BLOCK => Abort
  | REQUEST_REVIEW => Hold
  end.

Definition validate_pipeline_action_matches_decision (decision : Decision)
    (pipeline_action_taken : PipelineAction) : bool :=
  bool_decide (pipeline_action_taken = expected_actions decision).

(** [ReleaseDecision(...)]: [risk_score] in [0, 100], then the two model
    validators in declaration order.  [manual_override] defaults to [False]
    and [pipeline_action_taken] to ["none"] in the source; here every field
    is passed explicitly.  Notifications and timestamp are not modelled. *)
Definition mk_ReleaseDecision (build_id commit_sha : string)
    (decision : Decision) (risk_score : Z) (confidence_level : ConfidenceLevel)
    (rationale : string) (policy_evaluation : PolicyEvaluation)
    (manual_override : bool) (overridden_by override_reason : option string)
    (pipeline_action_taken : PipelineAction) : option ReleaseDecision :=
  if bool_decide (0 <= risk_score <= 100) then
    if negb (validate_manual_override_has_reviewer manual_override overridden_by)
    then None
    else if negb (validate_pipeline_action_matches_decision decision
                    pipeline_action_taken)
    then None
    else Some {| rd_build_id := build_id; rd_commit_sha := commit_sha;
                 rd_decision := decision; rd_risk_score := risk_score;
                 rd_confidence_level := confidence_level;
                 rd_rationale := rationale;
                 rd_policy_evaluation := policy_evaluation;
                 rd_manual_override := manual_override;
                 rd_overridden_by := overridden_by;
                 rd_override_reason := override_reason;
                 rd_pipeline_action_taken := pipeline_action_taken |}
  else None.

Record AuditRecord := {
  ar_decision_id : string;
  ar_build_id : string;
  ar_commit_sha : string;
  ar_environment : string;
  ar_decision : ReleaseDecision;
  ar_test_report_snapshot : option TestAnalysisReport;
  ar_perf_report_snapshot : option PerformanceAnalysisReport;
  ar_risk_assessment_snapshot : option RiskAssessment;
  ar_graph_execution_time_seconds : Q;
  ar_agent_timings : gmap string Q;
  ar_errors_encountered : list string;
}.

(** [AuditRecord(...)]: the only constraint is
    [graph_execution_time_seconds >= 0]; the class declares no validator. *)
Definition mk_AuditRecord (decision_id build_id commit_sha environment : string)
    (decision : ReleaseDecision)
    (test_report_snapshot : option TestAnalysisReport)
    (perf_report_snapshot : option PerformanceAnalysisReport)
    (risk_assessment_snapshot : option RiskAssessment)
    (graph_execution_time_seconds : Q) (agent_timings : gmap string Q)
    (errors_encountered : list string) : option AuditRecord :=
  if Qle_bool 0 graph_execution_time_seconds then
    Some {| ar_decision_id := decision_id; ar_build_id := build_id;
            ar_commit_sha := commit_sha; ar_environment := environment;
            ar_decision := decision;
            ar_test_report_snapshot := test_report_snapshot;
            ar_perf_report_snapshot := perf_report_snapshot;
            ar_risk_assessment_snapshot := risk_assessment_snapshot;
            ar_graph_execution_time_seconds := graph_execution_time_seconds;
            ar_agent_timings := agent_timings;
            ar_errors_encountered := errors_encountered |}
  else None.

(* ------------------------------------------------------------------------- *)
(** ** Further members of the model classes                                    *)

(** *** test_report.py: CoverageReport *)

Record CoverageReport := {
  cr_total_lines : Z;
  cr_covered_lines : Z;
  cr_coverage_percentage : Q;
  cr_baseline_coverage : Q;
  cr_delta_from_baseline : Q;
  cr_uncovered_critical_paths : list string;
}.

(** [CoverageReport.covered_lines_must_not_exceed_total]; its argument is
    [info.data.get("total_lines")], [None] when that field failed. *)
Definition covered_lines_must_not_exceed_total (total_lines : option Z) (v : Z)
    : option Z :=
  match total_lines with
  | Some t => if bool_decide (t < v) then None else Some v
  | None => Some v
  end.

(** [CoverageReport(...)]: [total_lines] is validated before [covered_lines],
    so it is in [info.data] exactly when it passed [ge=0]. *)
Definition mk_CoverageReport (total_lines covered_lines : Z)
    (coverage_percentage baseline_coverage delta_from_baseline : Q)
    (uncovered_critical_paths : list string) : option CoverageReport :=
  let total_ok := if bool_decide (0 <= total_lines) then Some total_lines else None in
  let covered_ok :=
    if bool_decide (0 <= covered_lines)
    then covered_lines_must_not_exceed_total total_ok covered_lines
    else None in
  if bool_decide (is_Some total_ok) && bool_decide (is_Some covered_ok)
     && Qin_range 0 coverage_percentage 100 && Qin_range 0 baseline_coverage 100
  then Some {| cr_total_lines := total_lines; cr_covered_lines := covered_lines;
               cr_coverage_percentage := coverage_percentage;
               cr_baseline_coverage := baseline_coverage;
               cr_delta_from_baseline := delta_from_baseline;
               cr_uncovered_critical_paths := uncovered_critical_paths |}
  else None.

(** *** test_report.py: FailureClassification and the counts over
    [TestAnalysisReport.failure_classifications] *)

Inductive FailureCategory := New_bug | Flaky | Infra | Known_issue.
Inductive ClassifiedBy := By_algorithm | By_llm.

#[global] Instance FailureCategory_eq_dec : EqDecision FailureCategory.
Proof. solve_decision. Defined.

Record FailureClassification := {
  fc_test_id : string;
  fc_test_name : string;
  fc_category : FailureCategory;
  fc_confidence : Q;
  fc_reasoning : string;
  fc_flake_rate : option Q;
  fc_classified_by : ClassifiedBy;
}.

(** [TestAnalysisReport.new_bugs_count]. *)
Definition new_bugs_count (failure_classifications : list FailureClassification) : nat :=
  length (filter (fun fc => fc_category fc = New_bug) failure_classifications).

(** [TestAnalysisReport.has_critical_failures]. *)
Definition has_critical_failures (failure_classifications : list FailureClassification)
    : bool :=
  bool_decide (0 < new_bugs_count failure_classifications)%nat.

(** [flaky_count] in [TestAnalysisReport.to_summary]. *)
Definition flaky_count (failure_classifications : list FailureClassification) : nat :=
  length (filter (fun fc => fc_category fc = Flaky) failure_classifications).

(** *** perf_report.py: BenchmarkResult *)

Record BenchmarkResult := {
  bm_service : string;
  bm_endpoint : option string;
  bm_latency_p50_ms : Q;
  bm_latency_p95_ms : Q;
  bm_latency_p99_ms : Q;
  bm_throughput_rps : Q;
  bm_memory_mb : Q;
  bm_error_rate : Q;
  bm_sample_count : Z;
}.

(** [BenchmarkResult(...)]: field constraints, then
    [validate_percentile_ordering]. *)
Definition mk_BenchmarkResult (service : string) (endpoint : option string)
    (p50 p95 p99 throughput_rps memory_mb error_rate : Q) (sample_count : Z)
    : option BenchmarkResult :=
  if Qle_bool 0 p50 && Qle_bool 0 p95 && Qle_bool 0 p99
     && Qle_bool 0 throughput_rps && Qle_bool 0 memory_mb
     && Qin_range 0 error_rate 1 && bool_decide (0 <= sample_count)
  then
    if negb (Qle_bool p50 p95 && Qle_bool p95 p99) then None
    else Some {| bm_service := service; bm_endpoint := endpoint;
                 bm_latency_p50_ms := p50; bm_latency_p95_ms := p95;
                 bm_latency_p99_ms := p99; bm_throughput_rps := throughput_rps;
                 bm_memory_mb := memory_mb; bm_error_rate := error_rate;
                 bm_sample_count := sample_count |}
  else None.

(** *** perf_report.py: SLOCheck and [PerformanceAnalysisReport.slo_checks] *)

Record SLOCheck := {
  slo_name : string;
  slo_service : string;
  slo_target_description : string;
  slo_target_value : Q;
  slo_current_value : Q;
  slo_is_met : bool;
  slo_margin : Q;
}.

(** [PerformanceAnalysisReport.has_slo_violations]:
    [any(not slo.is_met for slo in self.slo_checks)]. *)
Definition has_slo_violations (slo_checks : list SLOCheck) : bool :=
  existsb (fun slo => negb (slo_is_met slo)) slo_checks.

(** [slo_violations] in [PerformanceAnalysisReport.to_summary]:
    [sum(1 for slo in self.slo_checks if not slo.is_met)]. *)
Definition slo_violations (slo_checks : list SLOCheck) : nat :=
  length (filter (fun slo => slo_is_met slo = false) slo_checks).

(** *** perf_report.py: the severity scan of
    [PerformanceAnalysisReport.to_summary] *)

Definition severity_order (s : Severity) : Z :=
  match s with
  | Sev_critical => 4
  | Sev_major => 3
  | Sev_minor => 2
  | Sev_none => 1
  end.

Definition severity_name (s : Severity) : string :=
  match s with
  | Sev_critical => "critical"
  | Sev_major => "major"
  | Sev_minor => "minor"
  | Sev_none => "none"
  end.

(** The [for c in self.comparisons] loop, from the current [max_severity]. *)
Fixpoint max_severity_loop (max_severity : Severity) (cs : list MetricComparison)
    : Severity :=
  match cs with
  | [] => max_severity
  | c :: rest =>
      if mc_is_regression c
         && bool_decide (severity_order max_severity < severity_order (mc_severity c))
      then max_severity_loop (mc_severity c) rest
      else max_severity_loop max_severity rest
  end.

Definition max_severity (cs : list MetricComparison) : Severity :=
  max_severity_loop Sev_none cs.

(** [severity_str] of [PerformanceAnalysisReport.to_summary]. *)
Definition perf_severity_str (pr : PerformanceAnalysisReport) : string :=
  if bool_decide (0 < pr_regressions_detected pr)
  then " (" +:+ severity_name (max_severity (pr_comparisons pr)) +:+ ")"
  else "".

(** *** risk_assessment.py: computed fields *)

(** [RiskAssessment.is_auto_approvable]. *)
Definition is_auto_approvable (ra : RiskAssessment) : bool :=
  bool_decide (ra_confidence_level ra = HIGH).

(** [RiskAssessment.requires_block]. *)
Definition requires_block (ra : RiskAssessment) : bool :=
  bool_decide (ra_confidence_level ra = CRITICAL).

(** [BlastRadius.involves_critical_path]. *)
Definition involves_critical_path (br : BlastRadius) : bool :=
  bool_decide (0 < length (br_critical_services_affected br))%nat.

(** The order of the four scopes, minimal lowest. *)
Definition scope_rank (s : Scope) : nat :=
  match s with Minimal => 0 | Moderate => 1 | Large => 2 | Extreme => 3 end.

(** *** release_decision.py: summaries and notifications *)

(** The [action_verbs] dict of [ReleaseDecision.to_summary]. *)
Definition action_verbs (a : PipelineAction) : string :=
  match a with
  | Proceed => "proceeding"
  | Hold => "held"
  | Abort => "aborted"
  | Action_none => "no action"
  end.

Inductive Channel := Slack | Pagerduty | Email | Github_status.
Inductive MessageType := Msg_approval | Msg_block | Msg_review_request | Msg_override.

Record NotificationRecord := {
  nr_channel : Channel;
  nr_recipient : string;
  nr_message_type : MessageType;
  nr_success : bool;
  nr_error : option string;
}.

(** [ReleaseDecision.all_notifications_succeeded], over
    [self.notifications]. *)
Definition all_notifications_succeeded (notifications : list NotificationRecord)
    : bool :=
  match notifications with
  | [] => true
  | _ => forallb nr_success notifications
  end.

(** [short_id] of [AuditRecord.to_summary] (and [short_sha] of
    [BuildInfo.to_summary]): [s[:7] if len(s) >= 7 else s]. *)
Definition short_id (s : string) : string :=
  if (7 <=? String.length s)%nat then String.substring 0 7 s else s.

(* ------------------------------------------------------------------------- *)
(** ** Readings of the specification, compared with the code above            *)

(** The confidence bands as the specification lists them, with inclusive
    bounds: 0-20 HIGH, 21-50 MEDIUM, 51-75 LOW, 76-100 CRITICAL. *)
Definition confidence_band_spec (s : Z) : option ConfidenceLevel :=
  if (0 <=? s) && (s <=? 20) then Some HIGH
  else if (21 <=? s) && (s <=? 50) then Some MEDIUM
  else if (51 <=? s) && (s <=? 75) then Some LOW
  else if (76 <=? s) && (s <=? 100) then Some CRITICAL
  else None.

(** The blast-radius scope as the specification states its precedence. *)
Definition scope_spec (num_services num_critical : nat) : Scope :=
  if decide (7 <= num_services \/ 3 <= num_critical)%nat then Extreme
  else if decide (4 <= num_services \/ 2 <= num_critical)%nat then Large
  else if decide (2 <= num_services)%nat then Moderate
  else Minimal.
Lemma validate_test_counts_sum_no_errored (data : gmap string Z) (v : Z) :
  data !! "errored" = None -> validate_test_counts_sum data v = Some v.
Proof.
  intros Hn. unfold validate_test_counts_sum. cbn [forallb].
  rewrite Hn. rewrite (bool_decide_false (is_Some (@None Z))) by (intros [? H]; inversion H).
  rewrite !andb_false_r. reflexivity.
Qed.


Lemma validate_int_field_no_errored (name : string) (data : gmap string Z) (v : Z) :
  data !! "errored" = None ->
  validate_int_field name data v = validate_int_field name ∅ v.
Proof.
  intros Hn. unfold validate_int_field.
  destruct (bool_decide (v < 0)); [done|].
  destruct (bool_decide (name = "test_confidence_score")); [done|].
  destruct (bool_decide (name ∈ ["passed"; "failed"; "skipped"; "errored"])); [|done].
  rewrite !validate_test_counts_sum_no_errored; [done|apply lookup_empty|done].
Qed.

Lemma validate_int_field_empty (name : string) (v : Z) :
  name <> "test_confidence_score" ->
  validate_int_field name ∅ v = if bool_decide (v < 0) then None else Some v.
Proof.
  intros Hne. unfold validate_int_field.
  case_bool_decide; [done|]. rewrite bool_decide_false by done.
  destruct (bool_decide (name ∈ ["passed"; "failed"; "skipped"; "errored"])); [|done].
  apply validate_test_counts_sum_no_errored, lookup_empty.
Qed.

Lemma validate_fields_no_errored (fs : list (string * Z)) :
  forall (data : gmap string Z) (ok : bool),
  data !! "errored" = None -> "errored" ∉ fs.*1 ->
  (validate_fields data ok fs).1 !! "errored" = None /\
  (validate_fields data ok fs).2 =
    ok && forallb (fun kv => bool_decide (is_Some (validate_int_field kv.1 ∅ kv.2))) fs.
Proof.
  induction fs as [|[k v] fs IH]; intros data ok Hn Hfs; simpl.
  - by rewrite andb_true_r.
  - apply not_elem_of_cons in Hfs as [Hk Hfs].
    rewrite (validate_int_field_no_errored _ _ _ Hn).
    destruct (validate_int_field k ∅ v) as [v'|] eqn:E; simpl.
    + apply IH; [|done]. by rewrite lookup_insert_ne.
    + rewrite andb_false_r. by apply IH.
Qed.

Lemma validate_fields_app (xs ys : list (string * Z)) :
  forall (data : gmap string Z) (ok : bool),
  validate_fields data ok (xs ++ ys) =
  let '(d, o) := validate_fields data ok xs in validate_fields d o ys.
Proof.
  induction xs as [|[k v] xs IH]; intros data ok; simpl; [done|].
  destruct (validate_int_field k data v); apply IH.
Qed.

Lemma validate_int_field_score (data : gmap string Z) (v : Z) :
  validate_int_field "test_confidence_score" data v =
  if bool_decide (v < 0) then None
  else if bool_decide (100 < v) then None else Some v.
Proof.
  unfold validate_int_field. case_bool_decide; [done|].
  rewrite bool_decide_true by done. done.
Qed.

Lemma bool_decide_is_Some_if (b : bool) (v : Z) :
  bool_decide (is_Some (if b then None else Some v)) = negb b.
Proof. destruct b; [apply bool_decide_false; by intros [? ?] | by apply bool_decide_true]. Qed.

Lemma bool_decide_nonneg (x : Z) : bool_decide (0 <= x) = negb (bool_decide (x < 0)).
Proof. do 2 case_bool_decide; simpl; done || lia. Qed.

Lemma bool_decide_le_100 (x : Z) : bool_decide (x <= 100) = negb (bool_decide (100 < x)).
Proof. do 2 case_bool_decide; simpl; done || lia. Qed.

Lemma mk_TestAnalysisReport_spec (t p f s e c : Z) :
  mk_TestAnalysisReport t p f s e c =
  if bool_decide (0 <= t /\ 0 <= p /\ 0 <= f /\ 0 <= s /\ 0 <= e /\
                  0 <= c <= 100)
  then Some {| tr_total_tests := t; tr_passed := p; tr_failed := f;
               tr_skipped := s; tr_errored := e;
               tr_test_confidence_score := c |}
  else None.
Proof.
  unfold mk_TestAnalysisReport, test_report_int_fields.
  cbn [zip zip_with].
  change (?a :: ?b :: ?c :: ?d :: ?x :: ?y :: []) with ([a; b; c; d] ++ [x; y]).
  rewrite validate_fields_app.
  destruct (validate_fields_no_errored [("total_tests", t); ("passed", p);
    ("failed", f); ("skipped", s)] ∅ true) as [H1 H2];
    [apply lookup_empty | set_solver |].
  destruct (validate_fields ∅ true _) as [d o]. simpl in H1, H2.
  rewrite !validate_int_field_empty, !bool_decide_is_Some_if in H2 by done.
  subst o. cbn [validate_fields].
  rewrite (validate_int_field_no_errored _ _ _ H1), validate_int_field_empty by done.
  rewrite !bool_decide_and, !bool_decide_nonneg, bool_decide_le_100.
  destruct (bool_decide (t < 0)), (bool_decide (p < 0)), (bool_decide (f < 0)),
    (bool_decide (s < 0)), (bool_decide (e < 0)); cbn [validate_fields negb andb];
    rewrite validate_int_field_score;
    destruct (bool_decide (c < 0)), (bool_decide (100 < c)); reflexivity.
Qed.

(* ------------------------------------------------------------------------- *)
(** ** Float comparison lemmas                                                 *)

Lemma Qlt_bool_iff (x y : Q) : Qlt_bool x y = true <-> (x < y)%Q.
Proof.
  unfold Qlt_bool. rewrite negb_true_iff. split.
  - intros H. apply Qnot_le_lt. intros Hle. apply Qle_bool_iff in Hle. congruence.
  - intros H. destruct (Qle_bool y x) eqn:E; [|done].
    apply Qle_bool_iff in E. exfalso. by apply (Qlt_not_le x y).
Qed.

Lemma Qlt_bool_false (x y : Q) : Qlt_bool x y = false <-> (y <= x)%Q.
Proof.
  unfold Qlt_bool. rewrite negb_false_iff. apply Qle_bool_iff.
Qed.

(* ------------------------------------------------------------------------- *)
(** ** MetricComparison                                                        *)

(** C1 (code bug): [MetricComparison(...)] never checks [is_regression]
    against [p_value < 0.05 and cohens_d > 0.5]. With [p_value = 0.03],
    [cohens_d = 0.4] and [is_regression = True] it succeeds, and the stored
    flag disagrees with the two computed fields. In general, whenever one
    value of [is_regression] constructs, so does the other, and one of the
    two disagrees with the formula: for every in-range input a comparison
    with the wrong flag is accepted. *)
Theorem MetricComparison_mismatch_accepted :
  (exists mc,
    mk_MetricComparison "latency_p99" "api-service" 218 185 12 30
      (3 # 100) (2 # 5) true Sev_major Degraded = Some mc /\
    mc_is_regression mc = true /\
    (is_statistically_significant mc && is_practically_significant mc) = false) /\
  (forall (metric_name service : string)
      (current_value baseline_mean baseline_stddev : Q)
      (baseline_sample_count : Z) (p_value cohens_d : Q) (b : bool)
      (severity : Severity) (direction : Direction) mc,
    mk_MetricComparison metric_name service current_value baseline_mean
      baseline_stddev baseline_sample_count p_value cohens_d b
      severity direction = Some mc ->
    exists mc',
      mk_MetricComparison metric_name service current_value baseline_mean
        baseline_stddev baseline_sample_count p_value cohens_d (negb b)
        severity direction = Some mc' /\
      (mc_is_regression mc <>
         (is_statistically_significant mc && is_practically_significant mc) \/
       mc_is_regression mc' <>
         (is_statistically_significant mc' && is_practically_significant mc'))).
Proof.
  split.
  - eexists. split; [reflexivity|]. split; vm_compute; reflexivity.
  - intros metric_name service cv bm bs bsc p d b sev dir mc.
    unfold mk_MetricComparison.
    destruct (Qle_bool 0 bs && _ && _ && _); [|discriminate].
    intros [= <-]. eexists. split; [reflexivity|].
    unfold is_statistically_significant, is_practically_significant. simpl.
    destruct b, (Qlt_bool p _ && Qlt_bool _ d); simpl;
      first [left; discriminate | right; discriminate].
Qed.

(* ------------------------------------------------------------------------- *)
(** ** TestAnalysisReport                                                      *)

(** C2: the counts [{total_tests=10, passed=7, failed=2, skipped=0,
    errored=0}] do not sum to [total_tests], yet [TestAnalysisReport(...)]
    succeeds; the matching counts [{10, 7, 2, 1, 0}] succeed too. *)
Theorem TestAnalysisReport_sum_mismatch_accepted :
  mk_TestAnalysisReport 10 7 2 0 0 80 =
    Some {| tr_total_tests := 10; tr_passed := 7; tr_failed := 2;
            tr_skipped := 0; tr_errored := 0; tr_test_confidence_score := 80 |} /\
  is_Some (mk_TestAnalysisReport 10 7 2 1 0 80).
Proof.
  rewrite !mk_TestAnalysisReport_spec. split; [reflexivity | eexists; reflexivity].
Qed.

(* ------------------------------------------------------------------------- *)
(** ** RiskAssessment                                                          *)

Lemma confidence_band_spec_expected (s : Z) :
  0 <= s <= 100 -> confidence_band_spec s = Some (expected_level s).
Proof.
  intros Hs. unfold confidence_band_spec, expected_level.
  destruct (Z.leb_spec s 20); [rewrite (proj2 (Z.leb_le 0 s)) by lia; done|].
  destruct (Z.leb_spec s 50).
  { rewrite (proj2 (Z.leb_le 21 s)) by lia. simpl. by rewrite andb_false_r. }
  destruct (Z.leb_spec s 75).
  { rewrite (proj2 (Z.leb_le 51 s)), (proj2 (Z.leb_le 0 s)),
      (proj2 (Z.leb_le 21 s)) by lia. done. }
  rewrite (proj2 (Z.leb_le 76 s)), (proj2 (Z.leb_le s 100)),
    (proj2 (Z.leb_le 0 s)), (proj2 (Z.leb_le 21 s)), (proj2 (Z.leb_le 51 s)) by lia.
  done.
Qed.

Lemma confidence_band_spec_range (s : Z) (c : ConfidenceLevel) :
  confidence_band_spec s = Some c -> 0 <= s <= 100.
Proof.
  unfold confidence_band_spec.
  destruct (Z.leb_spec 0 s), (Z.leb_spec s 20), (Z.leb_spec 21 s),
    (Z.leb_spec s 50), (Z.leb_spec 51 s), (Z.leb_spec s 75),
    (Z.leb_spec 76 s), (Z.leb_spec s 100); simpl; intros; try done; lia.
Qed.

Lemma mk_RiskAssessment_Some build_id score conf rbs br hc narrative actions :
  is_Some (mk_RiskAssessment build_id score conf rbs br hc narrative actions) <->
  0 <= score <= 100 /\ validate_weighted_scores_sum score rbs = true /\
  conf = expected_level score.
Proof.
  unfold mk_RiskAssessment, validate_confidence_level_matches_score.
  case_bool_decide as Hs; [|split; [intros [? ?]; done | tauto]].
  destruct (validate_weighted_scores_sum score rbs); simpl;
    [|split; [intros [? ?]; done | intuition congruence]].
  case_bool_decide as Hc; simpl.
  - split; [done | eauto].
  - split; [intros [? ?]; done | tauto].
Qed.

Lemma mk_RiskAssessment_fields build_id score conf rbs br hc narrative actions ra :
  mk_RiskAssessment build_id score conf rbs br hc narrative actions = Some ra ->
  ra_composite_risk_score ra = score /\ ra_confidence_level ra = conf /\
  ra_risk_breakdown ra = rbs.
Proof.
  unfold mk_RiskAssessment.
  case_bool_decide; [|done].
  destruct (negb _); [done|]. destruct (negb _); [done|].
  intros [= <-]. done.
Qed.

(** C3: [RiskAssessment(...)] succeeds only when [confidence_level] is the
    band of [composite_risk_score] with inclusive upper bounds (0-20 HIGH,
    21-50 MEDIUM, 51-75 LOW, 76-100 CRITICAL), and every constructed
    assessment carries the band of its score. *)
Theorem RiskAssessment_confidence_band build_id score conf rbs br hc narrative actions :
  (is_Some (mk_RiskAssessment build_id score conf rbs br hc narrative actions) <->
   confidence_band_spec score = Some conf /\
   validate_weighted_scores_sum score rbs = true) /\
  match mk_RiskAssessment build_id score conf rbs br hc narrative actions with
  | Some ra => confidence_band_spec (ra_composite_risk_score ra) =
                 Some (ra_confidence_level ra)
  | None => True
  end.
Proof.
  split.
  - rewrite mk_RiskAssessment_Some. split.
    + intros (Hs & Hw & ->). split; [|done]. by apply confidence_band_spec_expected.
    + intros [Hb Hw]. pose proof (confidence_band_spec_range _ _ Hb) as Hs.
      rewrite confidence_band_spec_expected in Hb by done.
      injection Hb as <-. done.
  - destruct (mk_RiskAssessment _ _ _ _ _ _ _ _) as [ra|] eqn:E; [|done].
    pose proof (mk_RiskAssessment_fields _ _ _ _ _ _ _ _ _ E) as (-> & -> & _).
    assert (Hs : is_Some (mk_RiskAssessment build_id score conf rbs br hc narrative actions))
      by (rewrite E; eauto).
    apply mk_RiskAssessment_Some in Hs as (Hs & _ & ->).
    by apply confidence_band_spec_expected.
Qed.

(** C4: [RiskAssessment(...)] fails exactly when one of its checks fails,
    among them [abs(sum(weighted_score) - composite_risk_score) <= 1.0], and
    every constructed assessment satisfies that bound. *)
Theorem RiskAssessment_weighted_sum_tolerance build_id score conf rbs br hc narrative actions :
  (is_Some (mk_RiskAssessment build_id score conf rbs br hc narrative actions) <->
   0 <= score <= 100 /\
   (Qabs (total_weighted rbs - inject_Z score) <= 1)%Q /\
   conf = expected_level score) /\
  match mk_RiskAssessment build_id score conf rbs br hc narrative actions with
  | Some ra => (Qabs (total_weighted (ra_risk_breakdown ra)
                      - inject_Z (ra_composite_risk_score ra)) <= 1)%Q
  | None => True
  end.
Proof.
  assert (Hw : forall s l, validate_weighted_scores_sum s l = true <->
             (Qabs (total_weighted l - inject_Z s) <= 1)%Q).
  { intros s l. unfold validate_weighted_scores_sum.
    rewrite negb_true_iff. apply Qlt_bool_false. }
  split.
  - rewrite mk_RiskAssessment_Some, Hw. done.
  - destruct (mk_RiskAssessment _ _ _ _ _ _ _ _) as [ra|] eqn:E; [|done].
    pose proof (mk_RiskAssessment_fields _ _ _ _ _ _ _ _ _ E) as (-> & _ & ->).
    assert (Hs : is_Some (mk_RiskAssessment build_id score conf rbs br hc narrative actions))
      by (rewrite E; eauto).
    apply mk_RiskAssessment_Some in Hs as (_ & Hv & _). by apply Hw.
Qed.

(* ------------------------------------------------------------------------- *)
(** ** BlastRadius                                                            *)

(** C5: [BlastRadius.scope] follows the precedence extreme, large, moderate,
    minimal; on constructed blast radii, 7 services and no critical one give
    "extreme", 3 services of which 2 critical give "large", and 1 service
    with no critical one gives "minimal". *)
Theorem BlastRadius_scope_precedence :
  (forall br : BlastRadius,
     scope br = scope_spec (length (br_services_affected br))
                           (length (br_critical_services_affected br))) /\
  fmap scope (mk_BlastRadius 3 ["a"; "b"; "c"; "d"; "e"; "f"; "g"] [] [] None)
    = Some Extreme /\
  fmap scope (mk_BlastRadius 3 ["a"; "b"; "c"] ["a"; "b"] [] None) = Some Large /\
  fmap scope (mk_BlastRadius 1 ["a"] [] [] None) = Some Minimal.
Proof.
  split; [|vm_compute; done].
  intros br. unfold scope, scope_spec. cbv zeta.
  destruct (Nat.leb_spec 7 (length (br_services_affected br))),
    (Nat.leb_spec 3 (length (br_critical_services_affected br))),
    (Nat.leb_spec 4 (length (br_services_affected br))),
    (Nat.leb_spec 2 (length (br_critical_services_affected br))),
    (Nat.leb_spec 2 (length (br_services_affected br))); simpl;
    repeat case_decide; try done; lia.
Qed.

(** C10: [BlastRadius.total_impact_zone] has no duplicates, and a name is in
    it exactly when it is in [services_affected] or in
    [downstream_dependencies]. *)
Theorem BlastRadius_total_impact_zone_union (br : BlastRadius) :
  NoDup (total_impact_zone br) /\
  forall x, x ∈ total_impact_zone br <->
            x ∈ br_services_affected br \/ x ∈ br_downstream_dependencies br.
Proof.
  unfold total_impact_zone. split; [apply NoDup_elements|].
  intros x. rewrite elem_of_elements, elem_of_union, !elem_of_list_to_set. done.
Qed.

(* ------------------------------------------------------------------------- *)
(** ** ReleaseDecision                                                         *)

Lemma validate_manual_override_has_reviewer_iff (manual : bool) (overridden_by : option string) :
  validate_manual_override_has_reviewer manual overridden_by = true <->
  manual = false \/ is_Some overridden_by.
Proof.
  unfold validate_manual_override_has_reviewer.
  destruct manual, overridden_by; simpl; split; intros H; try done; eauto.
  destruct H as [H | [? H]]; done.
Qed.

Lemma mk_ReleaseDecision_Some build_id commit_sha decision risk_score conf
    rationale pe manual overridden_by reason action :
  is_Some (mk_ReleaseDecision build_id commit_sha decision risk_score conf
             rationale pe manual overridden_by reason action) <->
  0 <= risk_score <= 100 /\ (manual = false \/ is_Some overridden_by) /\
  action = expected_actions decision.
Proof.
  unfold mk_ReleaseDecision, validate_pipeline_action_matches_decision.
  rewrite <- validate_manual_override_has_reviewer_iff.
  case_bool_decide as Hs; [|split; [intros [? ?]; done | tauto]].
  destruct (validate_manual_override_has_reviewer manual overridden_by); simpl.
  - case_bool_decide as Ha; simpl.
    + split; [done | eauto].
    + split; [intros [? ?]; done | intros (_ & _ & ?); done].
  - split; [intros [? ?]; done | intros (_ & ? & _); done].
Qed.

Lemma mk_ReleaseDecision_fields build_id commit_sha decision risk_score conf
    rationale pe manual overridden_by reason action rd :
  mk_ReleaseDecision build_id commit_sha decision risk_score conf
    rationale pe manual overridden_by reason action = Some rd ->
  rd_decision rd = decision /\ rd_manual_override rd = manual /\
  rd_overridden_by rd = overridden_by /\ rd_pipeline_action_taken rd = action.
Proof.
  unfold mk_ReleaseDecision.
  case_bool_decide; [|done].
  destruct (negb _); [done|]. destruct (negb _); [done|].
  intros [= <-]. done.
Qed.

(** C6: [ReleaseDecision(...)] succeeds only when [pipeline_action_taken] is
    the image of [decision] under APPROVE -> proceed, BLOCK -> abort,
    REQUEST_REVIEW -> hold; the default action "none" fails with every
    decision. *)
Theorem ReleaseDecision_pipeline_action_image build_id commit_sha decision
    risk_score conf rationale pe manual overridden_by reason action :
  (is_Some (mk_ReleaseDecision build_id commit_sha decision risk_score conf
              rationale pe manual overridden_by reason action) <->
   0 <= risk_score <= 100 /\ (manual = false \/ is_Some overridden_by) /\
   action = expected_actions decision) /\
  match mk_ReleaseDecision build_id commit_sha decision risk_score conf
          rationale pe manual overridden_by reason action with
  | Some rd => rd_pipeline_action_taken rd = expected_actions (rd_decision rd)
  | None => True
  end /\
  expected_actions APPROVE = Proceed /\ expected_actions BLOCK = Abort /\
  expected_actions REQUEST_REVIEW = Hold /\
  mk_ReleaseDecision build_id commit_sha decision risk_score conf
    rationale pe manual overridden_by reason Action_none = None.
Proof.
  split; [apply mk_ReleaseDecision_Some|]. split.
  - destruct (mk_ReleaseDecision _ _ _ _ _ _ _ _ _ _ _) as [rd|] eqn:E; [|done].
    pose proof (mk_ReleaseDecision_fields _ _ _ _ _ _ _ _ _ _ _ _ E)
      as (-> & _ & _ & ->).
    assert (Hs : is_Some (mk_ReleaseDecision build_id commit_sha decision
      risk_score conf rationale pe manual overridden_by reason action))
      by (rewrite E; eauto).
    by apply mk_ReleaseDecision_Some in Hs as (_ & _ & ->).
  - do 3 (split; [done|]).
    destruct (mk_ReleaseDecision _ _ _ _ _ _ _ _ _ _ Action_none) eqn:E; [|done].
    assert (Hs : is_Some (mk_ReleaseDecision build_id commit_sha decision
      risk_score conf rationale pe manual overridden_by reason Action_none))
      by (rewrite E; eauto).
    apply mk_ReleaseDecision_Some in Hs as (_ & _ & Ha). by destruct decision.
Qed.

(** C7: [ReleaseDecision(...)] with [manual_override=True] and
    [overridden_by=None] fails, and every constructed decision with
    [manual_override=True] names a reviewer in [overridden_by]. *)
Theorem ReleaseDecision_override_needs_reviewer build_id commit_sha decision
    risk_score conf rationale pe manual overridden_by reason action :
  mk_ReleaseDecision build_id commit_sha decision risk_score conf
    rationale pe true None reason action = None /\
  match mk_ReleaseDecision build_id commit_sha decision risk_score conf
          rationale pe manual overridden_by reason action with
  | Some rd => rd_manual_override rd = false \/ is_Some (rd_overridden_by rd)
  | None => True
  end.
Proof.
  split.
  - destruct (mk_ReleaseDecision _ _ _ _ _ _ _ true None _ _) eqn:E; [|done].
    assert (Hs : is_Some (mk_ReleaseDecision build_id commit_sha decision
      risk_score conf rationale pe true None reason action))
      by (rewrite E; eauto).
    apply mk_ReleaseDecision_Some in Hs as (_ & [? | [? ?]] & _); done.
  - destruct (mk_ReleaseDecision _ _ _ _ _ _ _ _ _ _ _) as [rd|] eqn:E; [|done].
    pose proof (mk_ReleaseDecision_fields _ _ _ _ _ _ _ _ _ _ _ _ E)
      as (_ & -> & -> & _).
    assert (Hs : is_Some (mk_ReleaseDecision build_id commit_sha decision
      risk_score conf rationale pe manual overridden_by reason action))
      by (rewrite E; eauto).
    by apply mk_ReleaseDecision_Some in Hs as (_ & ? & _).
Qed.

(* ------------------------------------------------------------------------- *)
(** ** top_risk_factor                                                         *)

(** Scanning [l] after a prefix [P] whose first maximum sits at index [i]
    keeps the first maximum of [P ++ l]. *)
Lemma max_by_key_first_max {A} (k : A -> Q) (l : list A) :
  forall (P : list A) (best : A) (i : nat),
  P !! i = Some best ->
  (forall j y, P !! j = Some y -> (k y <= k best)%Q) ->
  (forall j y, (j < i)%nat -> P !! j = Some y -> (k y < k best)%Q) ->
  exists i', (P ++ l) !! i' = Some (max_by_key k best l) /\
    (forall j y, (P ++ l) !! j = Some y -> (k y <= k (max_by_key k best l))%Q) /\
    (forall j y, (j < i')%nat -> (P ++ l) !! j = Some y ->
                 (k y < k (max_by_key k best l))%Q).
Proof.
  induction l as [|x l IH]; intros P best i Hi Hle Hlt; simpl.
  - rewrite app_nil_r. eauto.
  - replace (P ++ x :: l) with ((P ++ [x]) ++ l) by (rewrite <- app_assoc; done).
    pose proof (lookup_lt_Some _ _ _ Hi) as Hilen.
    destruct (Qlt_bool (k best) (k x)) eqn:E.
    + apply Qlt_bool_iff in E. apply (IH (P ++ [x]) x (length P)).
      * rewrite lookup_app_r, Nat.sub_diag by lia. done.
      * intros j y Hj. apply lookup_app_Some in Hj as [Hj | [_ Hj]].
        -- apply Qlt_le_weak, (Qle_lt_trans _ (k best)); [by eapply Hle | done].
        -- apply list_lookup_singleton_Some in Hj as [_ ->]. apply Qle_refl.
      * intros j y Hj Hy. rewrite lookup_app_l in Hy by done.
        apply (Qle_lt_trans _ (k best)); [by eapply Hle | done].
    + apply Qlt_bool_false in E. apply (IH (P ++ [x]) best i).
      * by apply lookup_app_l_Some.
      * intros j y Hj. apply lookup_app_Some in Hj as [Hj | [_ Hj]].
        -- by eapply Hle.
        -- by apply list_lookup_singleton_Some in Hj as [_ <-].
      * intros j y Hj Hy. rewrite lookup_app_l in Hy by lia. by eapply Hlt.
Qed.

(** C8: [top_risk_factor] is [None] for an empty [risk_breakdown]; otherwise
    it is the entry of greatest [weighted_score], the first such entry in
    list order when several share the maximum. *)
Theorem RiskAssessment_top_risk_factor_first_max (ra : RiskAssessment) :
  (ra_risk_breakdown ra = [] /\ top_risk_factor ra = None) \/
  exists i rb,
    top_risk_factor ra = Some rb /\ ra_risk_breakdown ra !! i = Some rb /\
    (forall j x, ra_risk_breakdown ra !! j = Some x ->
                 (rb_weighted_score x <= rb_weighted_score rb)%Q) /\
    (forall j x, (j < i)%nat -> ra_risk_breakdown ra !! j = Some x ->
                 (rb_weighted_score x < rb_weighted_score rb)%Q).
Proof.
  unfold top_risk_factor.
  destruct (ra_risk_breakdown ra) as [|x l]; [by left|right].
  destruct (max_by_key_first_max rb_weighted_score l [x] x 0)
    as (i & Hi & Hle & Hlt).
  - done.
  - intros j y Hj. apply list_lookup_singleton_Some in Hj as [_ ->]. apply Qle_refl.
  - lia.
  - exists i, (max_by_key rb_weighted_score x l). auto.
Qed.

(* ------------------------------------------------------------------------- *)
(** ** AuditRecord                                                             *)

(** C9: an [AuditRecord] whose risk snapshot has [composite_risk_score = 10]
    while its embedded decision has [risk_score = 90] is constructed without
    error: construction relates the two scores in no way. *)
Theorem AuditRecord_risk_scores_unrelated :
  exists rb br ra rd ar,
    mk_RiskBreakdown Test_risk 50 (1 # 5) 10 "2 new test failures" = Some rb /\
    mk_BlastRadius 3 ["checkout-service"] [] [] None = Some br /\
    mk_RiskAssessment "build-1847" 10 HIGH [rb] br None "Low risk." [] = Some ra /\
    mk_ReleaseDecision "build-1847" "abc1234" BLOCK 90 CRITICAL "Blocked."
      {| pe_environment := "production"; pe_policy_version := "1.0";
         pe_risk_threshold_approve := 25; pe_risk_threshold_review := 50;
         pe_actual_risk_score := 90; pe_deployment_window_ok := true;
         pe_freeze_period_ok := true; pe_overrides_applied := [];
         pe_raw_decision := BLOCK; pe_final_decision := BLOCK |}
      false None None Abort = Some rd /\
    mk_AuditRecord "abc-123" "build-1847" "abc1234" "production" rd None None
      (Some ra) (49 # 2) ∅ [] = Some ar /\
    ar_risk_assessment_snapshot ar = Some ra /\
    rd_risk_score (ar_decision ar) <> ra_composite_risk_score ra.
Proof.
  do 5 eexists. repeat split; try reflexivity. simpl. lia.
Qed.

(* ------------------------------------------------------------------------- *)
(** ** Further properties of the models                                        *)

Lemma is_Some_if_Some {A} (b : bool) (x : A) :
  is_Some (if b then Some x else None) <-> b = true.
Proof. destruct b; split; intros H; try done; eauto. Qed.

Lemma Qin_range_iff (lo x hi : Q) : Qin_range lo x hi = true <-> (lo <= x <= hi)%Q.
Proof. unfold Qin_range. by rewrite andb_true_iff, !Qle_bool_iff. Qed.

(** TestAnalysisReport construction succeeds exactly when every count is
    non-negative and the score lies in 0..100, whatever the counts sum to. *)
Theorem TestAnalysisReport_construction_range_only (t p f s e c : Z) :
  is_Some (mk_TestAnalysisReport t p f s e c) <->
  0 <= t /\ 0 <= p /\ 0 <= f /\ 0 <= s /\ 0 <= e /\ 0 <= c <= 100.
Proof.
  rewrite mk_TestAnalysisReport_spec, is_Some_if_Some. apply bool_decide_eq_true.
Qed.

Lemma coverage_lines_ok (total covered : Z) :
  bool_decide (is_Some (if bool_decide (0 <= total) then Some total else None)) &&
  bool_decide (is_Some (if bool_decide (0 <= covered)
                        then covered_lines_must_not_exceed_total
                               (if bool_decide (0 <= total) then Some total else None)
                               covered
                        else None))
  = bool_decide (0 <= covered <= total).
Proof.
  unfold covered_lines_must_not_exceed_total.
  destruct (decide (0 <= total)) as [Ht|Ht];
    [rewrite (bool_decide_true _ Ht) | rewrite (bool_decide_false _ Ht)].
  - rewrite (bool_decide_true (is_Some (Some total))) by eauto. simpl.
    destruct (decide (0 <= covered)) as [Hc|Hc];
      [rewrite (bool_decide_true _ Hc) | rewrite (bool_decide_false _ Hc)].
    + destruct (decide (total < covered)) as [Hl|Hl];
        [rewrite (bool_decide_true _ Hl) | rewrite (bool_decide_false _ Hl)].
      * rewrite !bool_decide_false; [done | lia | by intros [? ?]].
      * rewrite !bool_decide_true; [done | lia | eauto].
    + rewrite !bool_decide_false; [done | lia | by intros [? ?]].
  - rewrite (bool_decide_false (is_Some None)) by (by intros [? ?]).
    simpl. symmetry. apply bool_decide_false. lia.
Qed.

(** CoverageReport: [total_lines] is validated before [covered_lines], so the
    field validator sees it, and construction succeeds exactly when
    [0 <= covered_lines <= total_lines] and both percentages lie in 0..100. *)
Theorem CoverageReport_covered_within_total total covered pct base delta paths :
  is_Some (mk_CoverageReport total covered pct base delta paths) <->
  0 <= covered <= total /\ (0 <= pct <= 100)%Q /\ (0 <= base <= 100)%Q.
Proof.
  unfold mk_CoverageReport. cbv zeta.
  rewrite coverage_lines_ok, is_Some_if_Some, !andb_true_iff, !Qin_range_iff,
    bool_decide_eq_true. tauto.
Qed.

Lemma is_Some_if_check {A} (b c : bool) (x : A) :
  is_Some (if b then if c then None else Some x else None) <-> b = true /\ c = false.
Proof. destruct b, c; split; intros H; try done; try (destruct H as [? H]; done); eauto. Qed.

(** BenchmarkResult construction succeeds exactly when every measurement
    is non-negative, the error rate lies in 0..1 and the latency percentiles
    are ordered P50 <= P95 <= P99. *)
Theorem BenchmarkResult_percentiles_ordered service endpoint p50 p95 p99 rps mem err n :
  is_Some (mk_BenchmarkResult service endpoint p50 p95 p99 rps mem err n) <->
  (0 <= p50 /\ 0 <= rps /\ 0 <= mem /\ 0 <= err <= 1)%Q /\ 0 <= n /\
  (p50 <= p95 <= p99)%Q.
Proof.
  unfold mk_BenchmarkResult.
  rewrite is_Some_if_check, negb_false_iff, !andb_true_iff, Qin_range_iff,
    !Qle_bool_iff, bool_decide_eq_true.
  split; intros H; decompose [and] H; clear H; repeat split; try done.
  - by apply (Qle_trans _ p50).
  - apply (Qle_trans _ p50); [done|]. by apply (Qle_trans _ p95).
Qed.

(** HistoricalContext construction succeeds exactly when the counts are
    non-negative, the rollback rate lies in 0..1, the optional fields are
    non-negative, and [rollback_count <= total_deployments_analyzed]. *)
Theorem HistoricalContext_rollbacks_bounded service total rollbacks rate incidents
    recovery outcomes last :
  is_Some (mk_HistoricalContext service total rollbacks rate incidents recovery
             outcomes last) <->
  0 <= rollbacks <= total /\ (0 <= rate <= 1)%Q /\ 0 <= incidents /\
  match recovery with Some r => (0 <= r)%Q | None => True end /\
  match last with Some d => 0 <= d | None => True end.
Proof.
  unfold mk_HistoricalContext.
  rewrite is_Some_if_check, !andb_true_iff, Qin_range_iff, !bool_decide_eq_true,
    bool_decide_eq_false.
  destruct recovery as [r|], last as [d|]; simpl;
    rewrite ?Qle_bool_iff, ?bool_decide_eq_true;
    split; intros H; decompose [and] H; clear H; repeat split; try done; lia.
Qed.

(** A constructed RiskBreakdown has [weighted_score] within 0.01 of
    [raw_score * weight], hence [0 <= weighted_score <= 100.01]. *)
Theorem RiskBreakdown_weighted_score_bounds category raw weight weighted details rb :
  mk_RiskBreakdown category raw weight weighted details = Some rb ->
  (Qabs (rb_weighted_score rb - rb_raw_score rb * rb_weight rb) <= 1 # 100)%Q /\
  (0 <= rb_weighted_score rb <= 100 + (1 # 100))%Q.
Proof.
  unfold mk_RiskBreakdown.
  destruct (Qin_range 0 raw 100) eqn:Hr, (Qin_range 0 weight 1) eqn:Hw,
    (Qle_bool 0 weighted) eqn:Hn; cbn [andb]; try done.
  destruct (Qlt_bool (1 # 100) _) eqn:Hd; [done|]. intros [= <-].
  cbn [rb_weighted_score rb_raw_score rb_weight].
  apply Qin_range_iff in Hr, Hw. apply Qle_bool_iff in Hn.
  apply Qlt_bool_false in Hd. split; [done|].
  apply Qabs_Qle_condition in Hd as [_ Hd].
  split; [done|].
  assert (raw * weight <= 100)%Q by nra. lra.
Qed.

Lemma RiskBreakdown_weighted_score_bounds_witness :
  mk_RiskBreakdown Test_risk 28 (3 # 10) (42 # 5) "2 new test failures" =
    Some {| rb_category := Test_risk; rb_raw_score := 28; rb_weight := 3 # 10;
            rb_weighted_score := 42 # 5; rb_details := "2 new test failures" |} /\
  (Qabs ((42 # 5) - 28 * (3 # 10)) <= 1 # 100)%Q /\
  (0 <= 42 # 5 <= 100 + (1 # 100))%Q.
Proof.
  split; [reflexivity|].
  exact (RiskBreakdown_weighted_score_bounds Test_risk 28 (3 # 10) (42 # 5)
           "2 new test failures" _ eq_refl).
Defined.

Lemma length_filter_pos {A} (P : A -> Prop) `{!forall x, stdpp.base.Decision (P x)} (l : list A) :
  (0 < length (filter P l))%nat <-> exists x, x ∈ l /\ P x.
Proof.
  induction l as [|x l IH].
  - simpl. split; [lia | intros (? & Hx & _); inversion Hx].
  - rewrite filter_cons. case_decide as Hx; simpl.
    + split; [intros _; exists x; split; [constructor | done] | lia].
    + rewrite IH. split; intros (y & Hy & Py); exists y; split; try done.
      * set_solver.
      * apply elem_of_cons in Hy as [-> | Hy]; done.
Qed.

Lemma mk_PerformanceAnalysisReport_fields build_id cs reg anom missing score summary pr :
  mk_PerformanceAnalysisReport build_id cs reg anom missing score summary = Some pr ->
  pr_comparisons pr = cs /\ pr_regressions_detected pr = reg /\
  reg = Z.of_nat (length (filter (fun c => mc_is_regression c = true) cs)).
Proof.
  unfold mk_PerformanceAnalysisReport.
  destruct (_ && _); [|done]. case_bool_decide as H; [|done]. by intros [= <-].
Qed.

(** The scan of [PerformanceAnalysisReport.to_summary] yields a severity at
    least as high as that of every regression, and it is either "none" or
    the severity of some regression. *)
Theorem max_severity_is_max_of_regressions (cs : list MetricComparison) :
  (forall c, c ∈ cs -> mc_is_regression c = true ->
             severity_order (mc_severity c) <= severity_order (max_severity cs)) /\
  (max_severity cs = Sev_none \/
   exists c, c ∈ cs /\ mc_is_regression c = true /\ mc_severity c = max_severity cs).
Proof.
  unfold max_severity.
  assert (Hgen : forall m, 
    (forall c, c ∈ cs -> mc_is_regression c = true ->
       severity_order (mc_severity c) <= severity_order (max_severity_loop m cs)) /\
    severity_order m <= severity_order (max_severity_loop m cs) /\
    (max_severity_loop m cs = m \/
     exists c, c ∈ cs /\ mc_is_regression c = true /\
               mc_severity c = max_severity_loop m cs)).
  { induction cs as [|c cs IH]; intros m; simpl.
    - split; [intros ? Hc; inversion Hc|]. split; [lia | by left].
    - destruct (mc_is_regression c) eqn:Er; simpl;
        [case_bool_decide as Hlt|].
      + destruct (IH (mc_severity c)) as (H1 & H2 & H3). split; [|split].
        * intros c' Hc' Hr. apply elem_of_cons in Hc' as [-> | Hc']; [done|].
          by apply H1.
        * lia.
        * right. destruct H3 as [H3 | (c' & ? & ? & ?)].
          -- exists c. split; [set_solver|]. by rewrite H3.
          -- exists c'. split; [set_solver | done].
      + destruct (IH m) as (H1 & H2 & H3). split; [|split].
        * intros c' Hc' Hr. apply elem_of_cons in Hc' as [-> | Hc']; [lia|].
          by apply H1.
        * done.
        * destruct H3 as [H3 | (c' & ? & ? & ?)]; [by left|].
          right. exists c'. split; [set_solver | done].
      + destruct (IH m) as (H1 & H2 & H3). split; [|split].
        * intros c' Hc' Hr. apply elem_of_cons in Hc' as [-> | Hc']; [congruence|].
          by apply H1.
        * done.
        * destruct H3 as [H3 | (c' & ? & ? & ?)]; [by left|].
          right. exists c'. split; [set_solver | done]. }
  destruct (Hgen Sev_none) as (H1 & _ & H3). done.
Qed.

(** A constructed PerformanceAnalysisReport counts its regressions exactly,
    never more than its comparisons, and its summary omits the severity
    suffix exactly when no comparison is a regression. *)
Theorem PerformanceAnalysisReport_regression_count build_id cs reg anom missing
    score summary pr :
  mk_PerformanceAnalysisReport build_id cs reg anom missing score summary = Some pr ->
  pr_regressions_detected pr =
    Z.of_nat (length (filter (fun c => mc_is_regression c = true) cs)) /\
  pr_regressions_detected pr <= Z.of_nat (length cs) /\
  (perf_severity_str pr = "" <-> forall c, c ∈ cs -> mc_is_regression c = false).
Proof.
  intros E. destruct (mk_PerformanceAnalysisReport_fields _ _ _ _ _ _ _ _ E)
    as (Hc & Hr & ->).
  rewrite Hr. split; [done|]. split.
  { apply inj_le. apply length_filter. }
  unfold perf_severity_str. rewrite Hr.
  case_bool_decide as Hpos.
  - split; [done|]. intros Hall. exfalso.
    assert (Hp : (0 < length (filter (fun c => mc_is_regression c = true) cs))%nat)
      by lia.
    apply length_filter_pos in Hp as (c & Hc' & Hr').
    specialize (Hall c Hc'). congruence.
  - split; [intros _|done]. intros c Hc' . destruct (mc_is_regression c) eqn:Hr'; [|done].
    exfalso. apply Hpos.
    assert (Hp : (0 < length (filter (fun c => mc_is_regression c = true) cs))%nat)
      by (apply length_filter_pos; eauto).
    lia.
Qed.

(** [has_slo_violations] agrees with the violation count that
    [PerformanceAnalysisReport.to_summary] prints: it holds exactly when the
    count is positive. *)
Theorem has_slo_violations_iff_count (slo_checks : list SLOCheck) :
  has_slo_violations slo_checks = true <-> (0 < slo_violations slo_checks)%nat.
Proof.
  unfold has_slo_violations, slo_violations.
  rewrite existsb_exists, length_filter_pos. split.
  - intros (s & Hs & Hm). exists s. split; [by apply list_elem_of_In|].
    by apply negb_true_iff.
  - intros (s & Hs & Hm). exists s. split; [by apply list_elem_of_In|].
    by apply negb_true_iff.
Qed.

(** Among the failure classifications, the new bugs and the flaky tests
    counted by [TestAnalysisReport] never exceed the number of
    classifications, and [has_critical_failures] holds exactly when some
    classification is a new bug. *)
Theorem failure_counts_bounded (fcs : list FailureClassification) :
  (new_bugs_count fcs + flaky_count fcs <= length fcs)%nat /\
  (has_critical_failures fcs = true <-> exists fc, fc ∈ fcs /\ fc_category fc = New_bug).
Proof.
  split.
  - unfold new_bugs_count, flaky_count.
    induction fcs as [|fc fcs IH]; [simpl; lia|].
    rewrite !filter_cons. destruct (fc_category fc); simpl;
      repeat case_decide; try done; simpl; lia.
  - unfold has_critical_failures, new_bugs_count.
    rewrite bool_decide_eq_true. apply length_filter_pos.
Qed.

(** On a constructed RiskAssessment, [is_auto_approvable] holds exactly for
    scores up to 20 and [requires_block] exactly for scores from 76; the two
    never hold together. *)
Theorem RiskAssessment_approve_block_thresholds build_id score conf rbs br hc
    narrative actions ra :
  mk_RiskAssessment build_id score conf rbs br hc narrative actions = Some ra ->
  (is_auto_approvable ra = true <-> ra_composite_risk_score ra <= 20) /\
  (requires_block ra = true <-> 76 <= ra_composite_risk_score ra) /\
  ~ (is_auto_approvable ra = true /\ requires_block ra = true).
Proof.
  intros E.
  pose proof (mk_RiskAssessment_fields _ _ _ _ _ _ _ _ _ E) as (Hs & Hc & _).
  assert (Hv : is_Some (mk_RiskAssessment build_id score conf rbs br hc narrative actions))
    by (rewrite E; eauto).
  apply mk_RiskAssessment_Some in Hv as (Hr & _ & Hl).
  unfold is_auto_approvable, requires_block. rewrite Hs, Hc, Hl, !bool_decide_eq_true.
  unfold expected_level.
  destruct (Z.leb_spec score 20); [|destruct (Z.leb_spec score 50);
    [|destruct (Z.leb_spec score 75)]];
    (split; [|split]); try (split; intros; [done || lia | done || lia]);
    try (intros [? ?]; done).
Qed.

Lemma validate_critical_services_in_affected_iff (services critical : list string) :
  validate_critical_services_in_affected services critical = true <->
  forall c, c ∈ critical -> c ∈ services.
Proof.
  induction critical as [|c rest IH]; simpl.
  - split; [intros _ c Hc; inversion Hc | done].
  - case_bool_decide as Hc.
    + rewrite IH. split.
      * intros H x Hx. apply elem_of_cons in Hx as [-> | Hx]; auto.
      * intros H x Hx. apply H. by constructor.
    + split; [done|]. intros H. exfalso. apply Hc, H. by constructor.
Qed.

(** BlastRadius construction succeeds exactly when the counts are
    non-negative and every critical service is also an affected service;
    so a constructed blast radius that involves a critical path has at least
    one affected service. *)
Theorem BlastRadius_critical_subset files services critical downstream users :
  (is_Some (mk_BlastRadius files services critical downstream users) <->
   0 <= files /\ match users with Some u => 0 <= u | None => True end /\
   (forall c, c ∈ critical -> c ∈ services)) /\
  match mk_BlastRadius files services critical downstream users with
  | Some br => involves_critical_path br = false \/
               (0 < length (br_services_affected br))%nat
  | None => True
  end.
Proof.
  assert (Hiff : is_Some (mk_BlastRadius files services critical downstream users) <->
   0 <= files /\ match users with Some u => 0 <= u | None => True end /\
   (forall c, c ∈ critical -> c ∈ services)).
  { unfold mk_BlastRadius.
    rewrite is_Some_if_Some, !andb_true_iff, bool_decide_eq_true,
      validate_critical_services_in_affected_iff.
    destruct users; simpl; [rewrite bool_decide_eq_true|]; tauto. }
  split; [done|].
  destruct (mk_BlastRadius _ _ _ _ _) as [br|] eqn:E; [|done].
  destruct (proj1 Hiff ltac:(eauto)) as (_ & _ & Hsub).
  unfold mk_BlastRadius in E. destruct (_ && _ && _); [|done].
  injection E as <-. unfold involves_critical_path. simpl.
  destruct critical as [|c rest]; [by left|right].
  assert (Hc : c ∈ services) by (apply Hsub; constructor).
  destruct services; [inversion Hc | simpl; lia].
Qed.

(** [BlastRadius.scope] is monotone: more affected services and more
    critical services never give a smaller scope. *)
Theorem BlastRadius_scope_monotone (br br' : BlastRadius) :
  (length (br_services_affected br) <= length (br_services_affected br'))%nat ->
  (length (br_critical_services_affected br) <=
     length (br_critical_services_affected br'))%nat ->
  (scope_rank (scope br) <= scope_rank (scope br'))%nat.
Proof.
  intros Hs Hc. unfold scope. cbv zeta.
  destruct (Nat.leb_spec 7 (length (br_services_affected br))),
    (Nat.leb_spec 3 (length (br_critical_services_affected br))),
    (Nat.leb_spec 4 (length (br_services_affected br))),
    (Nat.leb_spec 2 (length (br_critical_services_affected br))),
    (Nat.leb_spec 2 (length (br_services_affected br))),
    (Nat.leb_spec 7 (length (br_services_affected br'))),
    (Nat.leb_spec 3 (length (br_critical_services_affected br'))),
    (Nat.leb_spec 4 (length (br_services_affected br'))),
    (Nat.leb_spec 2 (length (br_critical_services_affected br'))),
    (Nat.leb_spec 2 (length (br_services_affected br')));
    simpl; lia.
Qed.

Lemma BlastRadius_scope_monotone_witness :
  let br := {| br_files_changed := 2; br_services_affected := ["api"];
               br_critical_services_affected := []; br_downstream_dependencies := [];
               br_estimated_users_affected := None |} in
  let br' := {| br_files_changed := 9; br_services_affected := ["api"; "db"; "web"];
                br_critical_services_affected := ["db"; "web"];
                br_downstream_dependencies := []; br_estimated_users_affected := None |} in
  (length (br_services_affected br) <= length (br_services_affected br'))%nat /\
  (length (br_critical_services_affected br) <=
     length (br_critical_services_affected br'))%nat /\
  (scope_rank (scope br) <= scope_rank (scope br'))%nat.
Proof.
  intros br br'. split; [simpl; lia|]. split; [simpl; lia|].
  apply BlastRadius_scope_monotone; simpl; lia.
Defined.

Lemma length_elements_size (X : gset string) : length (elements X) = size X.
Proof. reflexivity. Qed.

Lemma size_list_to_set_le (l : list string) :
  (size (list_to_set l : gset string) <= length l)%nat.
Proof.
  induction l as [|x l IH].
  - change (list_to_set [] : gset string) with (∅ : gset string).
    rewrite size_empty. simpl. lia.
  - change (list_to_set (x :: l) : gset string)
      with ({[x]} ∪ list_to_set l : gset string).
    rewrite size_union_alt, size_singleton. simpl.
  pose proof (subseteq_size (list_to_set l ∖ {[x]} : gset string)
                (list_to_set l) ltac:(set_solver)). lia.
Qed.

(** [BlastRadius.total_impact_zone] is no longer than the two lists it
    merges, and at least as long as each of their duplicate-free versions. *)
Theorem BlastRadius_total_impact_zone_size (br : BlastRadius) :
  (length (total_impact_zone br) <=
     length (br_services_affected br) + length (br_downstream_dependencies br))%nat /\
  (size (list_to_set (br_services_affected br) : gset string) <=
     length (total_impact_zone br))%nat /\
  (size (list_to_set (br_downstream_dependencies br) : gset string) <=
     length (total_impact_zone br))%nat.
Proof.
  unfold total_impact_zone. rewrite length_elements_size.
  rewrite size_union_alt.
  pose proof (subseteq_size (list_to_set (br_downstream_dependencies br) ∖
                list_to_set (br_services_affected br) : gset string)
                (list_to_set (br_downstream_dependencies br)) ltac:(set_solver)).
  pose proof (size_list_to_set_le (br_services_affected br)).
  pose proof (size_list_to_set_le (br_downstream_dependencies br)).
  split; [lia|]. split; [lia|].
  rewrite <- size_union_alt. apply subseteq_size. set_solver.
Qed.

Lemma substring_0_props (s : string) :
  forall m,
  ((String.length s <= m)%nat -> String.substring 0 m s = s) /\
  String.length (String.substring 0 m s) = Nat.min m (String.length s) /\
  String.prefix (String.substring 0 m s) s = true.
Proof.
  induction s as [|a s IH]; intros [|m]; simpl.
  - done.
  - done.
  - split; [lia|done].
  - destruct (IH m) as (H1 & H2 & H3). split; [|split].
    + intros Hl. rewrite H1; [done|lia].
    + by rewrite H2.
    + destruct (Ascii.ascii_dec a a); [done | congruence].
Qed.

(** The [short_id] of [AuditRecord.to_summary] (and [short_sha] of
    [BuildInfo.to_summary]) is the slice [s[:7]] in both branches: a prefix
    of the identifier of length [min(7, len(s))]. *)
Theorem short_id_is_prefix (s : string) :
  short_id s = String.substring 0 7 s /\
  String.length (short_id s) = Nat.min 7 (String.length s) /\
  String.prefix (short_id s) s = true.
Proof.
  destruct (substring_0_props s 7) as (H1 & H2 & H3).
  assert (Hs : short_id s = String.substring 0 7 s).
  { unfold short_id. destruct (Nat.leb_spec 7 (String.length s)); [done|].
    symmetry. apply H1. lia. }
  rewrite Hs. done.
Qed.

(** On a constructed ReleaseDecision the pipeline phrase of [to_summary] is
    never "no action": it is "proceeding", "aborted" or "held" as the
    decision is APPROVE, BLOCK or REQUEST_REVIEW. *)
Theorem ReleaseDecision_summary_action_verb build_id commit_sha decision risk_score
    conf rationale pe manual overridden_by reason action rd :
  mk_ReleaseDecision build_id commit_sha decision risk_score conf rationale pe
    manual overridden_by reason action = Some rd ->
  action_verbs (rd_pipeline_action_taken rd) <> "no action" /\
  action_verbs (rd_pipeline_action_taken rd) =
    match rd_decision rd with
    | APPROVE => "proceeding"
    | BLOCK => "aborted"
    | REQUEST_REVIEW => "held"
    end.
Proof.
  intros E.
  pose proof (mk_ReleaseDecision_fields _ _ _ _ _ _ _ _ _ _ _ _ E) as (Hd & _ & _ & Ha).
  assert (Hs : is_Some (mk_ReleaseDecision build_id commit_sha decision risk_score
    conf rationale pe manual overridden_by reason action)) by (rewrite E; eauto).
  apply mk_ReleaseDecision_Some in Hs as (_ & _ & He).
  rewrite Ha, Hd, He. destruct decision; simpl; done.
Qed.

(** [all_notifications_succeeded] holds exactly when every notification
    succeeded; its special case for an empty list agrees with [all]. *)
Theorem all_notifications_succeeded_iff (notifications : list NotificationRecord) :
  all_notifications_succeeded notifications = true <->
  forall n, n ∈ notifications -> nr_success n = true.
Proof.
  assert (Hall : all_notifications_succeeded notifications =
                 forallb nr_success notifications)
    by (destruct notifications; done).
  rewrite Hall, forallb_forall. split; intros H n Hn; apply H.
  - by apply list_elem_of_In.
  - by apply list_elem_of_In.
Qed.

Lemma PerformanceAnalysisReport_regression_count_witness :
  exists pr,
    mk_PerformanceAnalysisReport "build-1847"
      [{| mc_metric_name := "latency_p99"; mc_service := "api-service";
          mc_current_value := 218; mc_baseline_mean := 185;
          mc_baseline_stddev := 12; mc_baseline_sample_count := 30;
          mc_p_value := 3 # 1000; mc_cohens_d := 18 # 25;
          mc_is_regression := true; mc_severity := Sev_major;
          mc_direction := Degraded |}] 1 0 0 55 "1 regression" = Some pr /\
    pr_regressions_detected pr =
      Z.of_nat (length (filter (fun c => mc_is_regression c = true) (pr_comparisons pr))) /\
    pr_regressions_detected pr <= Z.of_nat (length (pr_comparisons pr)) /\
    (perf_severity_str pr = "" <->
     forall c, c ∈ pr_comparisons pr -> mc_is_regression c = false).
Proof.
  eexists. split; [reflexivity|].
  apply (PerformanceAnalysisReport_regression_count "build-1847" _ 1 0 0 55
           "1 regression"). reflexivity.
Defined.

Lemma RiskAssessment_approve_block_thresholds_witness :
  exists ra,
    mk_RiskAssessment "build-1847" 80 CRITICAL
      [{| rb_category := Performance_risk; rb_raw_score := 80; rb_weight := 1;
          rb_weighted_score := 80; rb_details := "P99 latency regression" |}]
      {| br_files_changed := 3; br_services_affected := ["checkout-service"];
         br_critical_services_affected := []; br_downstream_dependencies := [];
         br_estimated_users_affected := None |}
      None "High risk." [] = Some ra /\
    (is_auto_approvable ra = true <-> ra_composite_risk_score ra <= 20) /\
    (requires_block ra = true <-> 76 <= ra_composite_risk_score ra) /\
    ~ (is_auto_approvable ra = true /\ requires_block ra = true).
Proof.
  eexists. split; [reflexivity|].
  apply (RiskAssessment_approve_block_thresholds "build-1847" 80 CRITICAL
    [{| rb_category := Performance_risk; rb_raw_score := 80; rb_weight := 1;
        rb_weighted_score := 80; rb_details := "P99 latency regression" |}]
    {| br_files_changed := 3; br_services_affected := ["checkout-service"];
       br_critical_services_affected := []; br_downstream_dependencies := [];
       br_estimated_users_affected := None |}
    None "High risk." []).
  reflexivity.
Defined.

Lemma ReleaseDecision_summary_action_verb_witness :
  exists rd,
    mk_ReleaseDecision "build-1847" "abc1234" REQUEST_REVIEW 33 MEDIUM "Review."
      {| pe_environment := "production"; pe_policy_version := "1.0";
         pe_risk_threshold_approve := 25; pe_risk_threshold_review := 50;
         pe_actual_risk_score := 33; pe_deployment_window_ok := true;
         pe_freeze_period_ok := true; pe_overrides_applied := [];
         pe_raw_decision := REQUEST_REVIEW; pe_final_decision := REQUEST_REVIEW |}
      true (Some "alice") (Some "hotfix") Hold = Some rd /\
    action_verbs (rd_pipeline_action_taken rd) <> "no action" /\
    action_verbs (rd_pipeline_action_taken rd) =
      match rd_decision rd with
      | APPROVE => "proceeding"
      | BLOCK => "aborted"
      | REQUEST_REVIEW => "held"
      end.
Proof.
  eexists. split; [reflexivity|].
  apply (ReleaseDecision_summary_action_verb "build-1847" "abc1234" REQUEST_REVIEW
    33 MEDIUM "Review."
    {| pe_environment := "production"; pe_policy_version := "1.0";
       pe_risk_threshold_approve := 25; pe_risk_threshold_review := 50;
       pe_actual_risk_score := 33; pe_deployment_window_ok := true;
       pe_freeze_period_ok := true; pe_overrides_applied := [];
       pe_raw_decision := REQUEST_REVIEW; pe_final_decision := REQUEST_REVIEW |}
    true (Some "alice") (Some "hotfix") Hold).
  reflexivity.
Defined.
